(** * construct/debug.py: the Probe and Debugger constructs

    A shallow embedding of [construct/debug.py].  Python code that reads and
    writes the stream, the context, standard output and instance attributes
    becomes a computation in a state-and-exception monad [M]; the operator's
    [pdb] session is an arbitrary transformer of the machine state. *)

From Stdlib Require Import ZArith List String Ascii Strings.Byte Bool Lia.
From Stdlib Require Import DecimalString DecimalZ.
Import ListNotations.

Set Warnings "-register-all".

Open Scope string_scope.
Open Scope Z_scope.
Open Scope list_scope.

(** ** Python values and exceptions *)

(** The values that flow through a grammar.  [NotImplemented] is a singleton,
    so the test [x is NotImplemented] is a match on the constructor. *)
Inductive pyvalue : Type :=
| VNone
| VNotImplemented
| VBool (b : bool)
| VInt (z : Z)
| VBytes (b : list byte)
| VStr (s : string)
| VList (l : list pyvalue)
| VContainer (kv : list (string * pyvalue)).

(** The context is an insertion-ordered mapping from names to values. *)
Definition Context : Type := list (string * pyvalue).

(** Exception classes, with single inheritance.  The built-in classes that
    derive from [BaseException] directly are listed; everything else is a
    [Subclass] of something. *)
Inductive pyclass : Type :=
| BaseException
| Exception
| KeyboardInterrupt
| SystemExit
| GeneratorExit
| Subclass (name : string) (base : pyclass).

Definition class_name (c : pyclass) : string :=
  match c with
  | BaseException => "BaseException"
  | Exception => "Exception"
  | KeyboardInterrupt => "KeyboardInterrupt"
  | SystemExit => "SystemExit"
  | GeneratorExit => "GeneratorExit"
  | Subclass name _ => name
  end.

(** [issubclass(c, Exception)]: what an [except Exception:] clause tests. *)
Fixpoint issubclass_Exception (c : pyclass) : bool :=
  match c with
  | Exception => true
  | Subclass _ base => issubclass_Exception base
  | _ => false
  end.

Definition ValueError : pyclass := Subclass "ValueError" Exception.
Definition AttributeError : pyclass := Subclass "AttributeError" Exception.
Definition ConstructError : pyclass := Subclass "ConstructError" Exception.
Definition RangeError : pyclass := Subclass "RangeError" ConstructError.

(** A raised exception: its class, its message and the formatted entries of
    its traceback (outermost frame first). *)
Record exc : Type := mkExc {
  exc_class : pyclass;
  exc_msg : string;
  exc_tb : list string
}.

(** [traceback.format_exception]: a header, one entry per frame, and the
    final "Class: message" line. *)
Definition format_exception (e : exc) : list string :=
  ("Traceback (most recent call last):" ++ String "010" "")%string
    :: exc_tb e
    ++ [(class_name (exc_class e) ++
         (match exc_msg e with
          | EmptyString => ""
          | m => ": " ++ m
          end) ++ String "010" "")%string].

(** ** Machine state *)

(** An in-memory seekable stream ([io.BytesIO]): the bytes and the cursor. *)
Record BytesIO : Type := mkBytesIO {
  buf : list byte;
  pos : nat
}.

(** What [print] was called with.  [hexdump] and the rendering of a
    [Container] live in [construct.lib]; their arguments are recorded as
    they are handed over. *)
Inductive printed : Type :=
| PStr (s : string)
| PHexdump (data : list byte) (linesize : Z)
| PContainer (c : Context).

(** The objects a call can touch: the stream and the context handed to
    [_parse]/[_build], standard output (oldest line first), the [retval] slot
    of the [Debugger] instance ([__slots__] leaves it unset until it is first
    assigned), and the class attribute [Probe.counter]. *)
Record State : Type := mkState {
  st_stream : BytesIO;
  st_context : Context;
  st_stdout : list printed;
  st_retval : option pyvalue;
  st_counter : Z
}.

Definition with_stream (b : BytesIO) (s : State) : State :=
  mkState b (st_context s) (st_stdout s) (st_retval s) (st_counter s).
Definition with_stdout (o : list printed) (s : State) : State :=
  mkState (st_stream s) (st_context s) o (st_retval s) (st_counter s).
Definition with_retval (r : option pyvalue) (s : State) : State :=
  mkState (st_stream s) (st_context s) (st_stdout s) r (st_counter s).
Definition with_counter (c : Z) (s : State) : State :=
  mkState (st_stream s) (st_context s) (st_stdout s) (st_retval s) c.

(** ** The monad of Python statements *)

Inductive outcome (A : Type) : Type :=
| Return (a : A)
| Raise (e : exc).
Arguments Return {A} a.
Arguments Raise {A} e.

Definition M (A : Type) : Type := State -> outcome A * State.

Definition ret {A} (a : A) : M A := fun s => (Return a, s).
Definition raise {A} (e : exc) : M A := fun s => (Raise e, s).
Definition bind {A B} (m : M A) (k : A -> M B) : M B :=
  fun s =>
    match m s with
    | (Return a, s') => k a s'
    | (Raise e, s') => (Raise e, s')
    end.

(** [try: body / except Exception: handler].  Inside [handler e] a bare
    [raise] is [raise e]. *)
Definition try_except_Exception {A} (body : M A) (handler : exc -> M A) : M A :=
  fun s =>
    match body s with
    | (Return a, s') => (Return a, s')
    | (Raise e, s') =>
        if issubclass_Exception (exc_class e) then handler e s'
        else (Raise e, s')
    end.

Declare Scope py_scope.
Delimit Scope py_scope with py.
Notation "x <- m ;; k" := (bind m (fun x => k))
  (at level 100, m at next level, right associativity) : py_scope.
Notation "m ;;; k" := (bind m (fun _ => k))
  (at level 100, right associativity) : py_scope.
Open Scope py_scope.

Definition print (p : printed) : M unit :=
  fun s => (Return tt, with_stdout (st_stdout s ++ [p]) s).

Definition get_context : M Context := fun s => (Return (st_context s), s).

(** *** Stream primitives *)

(** [stream.tell()] *)
Definition tell : M Z := fun s => (Return (Z.of_nat (pos (st_stream s))), s).

(** [stream.read(size)]: at most [size] bytes, everything that is left when
    [size] is negative, nothing at or past the end. *)
Definition read_count (b : BytesIO) (size : Z) : nat :=
  let available := (List.length (buf b) - pos b)%nat in
  if (size <? 0) || (Z.of_nat available <? size) then available
  else Z.to_nat size.

Definition read (size : Z) : M (list byte) :=
  fun s =>
    let b := st_stream s in
    let n := read_count b size in
    (Return (firstn n (skipn (pos b) (buf b))),
     with_stream (mkBytesIO (buf b) (pos b + n)) s).

(** [stream.seek(offset)] *)
Definition seek (offset : Z) : M Z :=
  fun s =>
    if offset <? 0 then
      (Raise (mkExc ValueError "negative seek value" []), s)
    else
      (Return offset,
       with_stream (mkBytesIO (buf (st_stream s)) (Z.to_nat offset)) s).

(** ** Constructs *)

(** The protocol every grammar node implements ([construct.core.Construct]):
    its [str], and the three methods.  Stream and context are the ones held
    in the state. *)
Record Construct : Type := mkConstruct {
  con_str : string;
  con_parse : M pyvalue;
  con_build : pyvalue -> M pyvalue;
  con_sizeof : M Z
}.

(** [print]'s separator line: 80 times [=]. *)
Definition separator : string :=
  "================================================================================".

(** ["%d" % z] *)
Definition format_d (z : Z) : string := NilEmpty.string_of_int (Z.to_int z).

(** ** class Probe(Construct) *)

Module Probe.

Record t : Type := mk {
  printname : string;
  show_stream : bool;
  show_context : bool;
  show_stack : bool;
  stream_lookahead : Z;
  flagbuildnone : bool
}.

(** ["<unnamed %d>" % Probe.counter] *)
Definition unnamed (counter : Z) : string :=
  ("<unnamed " ++ format_d counter ++ ">")%string.

(** [Probe.__init__]; [name=None] is [None]. *)
Definition __init__ (name : option string)
    (show_stream show_context show_stack : bool) (stream_lookahead : Z) : M t :=
  name <- match name with
          | None =>
              fun s =>
                let s' := with_counter (st_counter s + 1) s in
                (Return (unnamed (st_counter s')), s')
          | Some n => ret n
          end ;;
  ret (mk name show_stream show_context show_stack stream_lookahead true).

(** [Probe.printout].  The block guarded by [show_stack] is commented out
    in the source, so nothing here reads that flag. *)
Definition printout (self : t) : M unit :=
  print (PStr separator) ;;;
  print (PStr ("Probe " ++ printname self)) ;;;
  (if show_stream self then
     fallback <- tell ;;
     datafollows <- read (stream_lookahead self) ;;
     _ <- seek fallback ;;
     match datafollows with
     | [] => print (PStr "EOF reached")
     | _ :: _ => print (PHexdump datafollows 32)
     end
   else ret tt) ;;;
  (if show_context self then
     context <- get_context ;;
     print (PContainer context)
   else ret tt) ;;;
  print (PStr separator).

Definition _parse (self : t) : M pyvalue :=
  printout self ;;; ret VNone.

Definition _build (self : t) (obj : pyvalue) : M pyvalue :=
  printout self ;;; ret VNone.

Definition _sizeof (self : t) : M Z := ret 0.

End Probe.

(** ** class Debugger(Subconstruct) *)

Module Debugger.

Record t : Type := mk { subcon : Construct }.

Definition set_retval (v : pyvalue) : M unit :=
  fun s => (Return tt, with_retval (Some v) s).

(** Reading [self.retval]; an unset slot raises [AttributeError]. *)
Definition get_retval : M pyvalue :=
  fun s =>
    match st_retval s with
    | Some v => (Return v, s)
    | None => (Raise (mkExc AttributeError "retval" []), s)
    end.

Section Session.

(** [pdb.post_mortem]: what the operator does to the machine between the
    prompt and the end of the session, given the exception. *)
Variable post_mortem : exc -> State -> State.

(** [Debugger.handle_exc]; [e] is the exception being handled
    ([sys.exc_info()]). *)
Definition handle_exc (self : t) (msg : option string) (e : exc) : M unit :=
  print (PStr separator) ;;;
  print (PStr ("Debugging exception of " ++ con_str (subcon self) ++ ":")) ;;;
  print (PStr (String.concat "" (tl (format_exception e)))) ;;;
  (match msg with
   | Some (String _ _ as m) => print (PStr m)
   | _ => ret tt
   end) ;;;
  (fun s => (Return tt, post_mortem e s)) ;;;
  print (PStr separator).

Definition _parse (self : t) : M pyvalue :=
  try_except_Exception
    (con_parse (subcon self))
    (fun e =>
       set_retval VNotImplemented ;;;
       handle_exc self
         (Some "(you can set the value of 'self.retval', which will be returned)")
         e ;;;
       retval <- get_retval ;;
       match retval with
       | VNotImplemented => raise e
       | v => ret v
       end).

Definition _build (self : t) (obj : pyvalue) : M pyvalue :=
  try_except_Exception
    (con_build (subcon self) obj ;;; ret VNone)
    (fun e => handle_exc self None e ;;; ret VNone).

End Session.

(** Modelled from the spec: [Subconstruct._sizeof], which [Debugger]
    inherits from [construct.core] and does not override.  The spec gives
    it as: "delegates to the wrapped stage's sizeof; this stage adds no
    size overhead and performs no special error handling around it". *)
Definition _sizeof (self : t) : M Z := con_sizeof (subcon self).

End Debugger.

(** ** Observing a call *)

(** The lines a computation adds to standard output when run from [s]. *)
Definition printed_during {A} (m : M A) (s : State) : list printed :=
  skipn (List.length (st_stdout s)) (st_stdout (snd (m s))).

(** The stream part and the context part of a [Probe] report, as functions
    of the state the report is made in. *)
Definition stream_report (self : Probe.t) (s : State) : list printed :=
  if Probe.show_stream self then
    match firstn (read_count (st_stream s) (Probe.stream_lookahead self))
                 (skipn (pos (st_stream s)) (buf (st_stream s))) with
    | [] => [PStr "EOF reached"]
    | d => [PHexdump d 32]
    end
  else [].

Definition context_report (self : Probe.t) (s : State) : list printed :=
  if Probe.show_context self then [PContainer (st_context s)] else [].

(** The lookahead property in the specification's wording, at one probe and
    one state: whenever [stream_lookahead] is some [L >= 0] and at least [L]
    bytes follow the cursor, a hex dump of exactly those [L] bytes is
    printed and the cursor ends where it started. *)
Definition dumps_lookahead (self : Probe.t) (s : State) : Prop :=
  let L := Probe.stream_lookahead self in
  let b := st_stream s in
  0 <= L ->
  L <= Z.of_nat (List.length (buf b) - pos b) ->
  In (PHexdump (firstn (Z.to_nat L) (skipn (pos b) (buf b))) 32)
     (printed_during (Probe.printout self) s)
  /\ pos (st_stream (snd (Probe.printout self s))) = pos b.

(** [show_stack] replaced, everything else kept. *)
Definition set_show_stack (flag : bool) (self : Probe.t) : Probe.t :=
  Probe.mk (Probe.printname self) (Probe.show_stream self)
           (Probe.show_context self) flag
           (Probe.stream_lookahead self) (Probe.flagbuildnone self).

(** ** Sample inputs *)

Definition sample_stream : BytesIO := mkBytesIO [x01; x02; x03; x04] 1.

Definition sample_state : State :=
  mkState sample_stream [("length", VInt 3)] [] None 0.

(** A stream whose cursor sits at the end. *)
Definition drained_state : State :=
  mkState (mkBytesIO [x01; x02] 2) [] [] None 0.

Definition sample_probe (lookahead : Z) : Probe.t :=
  Probe.mk "<unnamed 1>" true true true lookahead true.

(** ** The debugging session, seen from outside *)

(** The hint [Debugger._parse] passes to [handle_exc]. *)
Definition parse_hint : string :=
  "(you can set the value of 'self.retval', which will be returned)".

(** The state in which the operator's session opens when [handle_exc] is
    entered in [s]: the separator, the header, the traceback and the hint
    (when there is one) have been printed. *)
Definition session_entry (self : Debugger.t) (msg : option string) (e : exc)
    (s : State) : State :=
  with_stdout
    (st_stdout s
     ++ [PStr separator;
         PStr ("Debugging exception of " ++ con_str (Debugger.subcon self) ++ ":");
         PStr (String.concat "" (tl (format_exception e)))]
     ++ match msg with
        | Some (String _ _ as m) => [PStr m]
        | _ => []
        end)
    s.

(** The state [handle_exc] returns in, given the one the session ended in. *)
Definition session_exit (closed : State) : State :=
  with_stdout (st_stdout closed ++ [PStr separator]) closed.

(** "The slot is reset at the start of every parse invocation", at one
    instance and one state: parsing is the same as resetting the slot and
    then parsing. *)
Definition resets_slot_at_start (post_mortem : exc -> State -> State)
    (self : Debugger.t) (s : State) : Prop :=
  Debugger._parse post_mortem self s
  = (Debugger.set_retval VNotImplemented ;;; Debugger._parse post_mortem self) s.

(** ** Constructing several probes *)

Record Probe_args : Type := mkArgs {
  arg_name : option string;
  arg_show_stream : bool;
  arg_show_context : bool;
  arg_show_stack : bool;
  arg_stream_lookahead : Z
}.

(** [Probe(...)] once per element, in order, in one process. *)
Fixpoint construct_all (calls : list Probe_args) : M (list Probe.t) :=
  match calls with
  | [] => ret []
  | a :: rest =>
      p <- Probe.__init__ (arg_name a) (arg_show_stream a) (arg_show_context a)
                          (arg_show_stack a) (arg_stream_lookahead a) ;;
      ps <- construct_all rest ;;
      ret (p :: ps)
  end.

(** ** Sample operators and delegates *)

(** The operator leaves the session at once. *)
Definition operator_continues : exc -> State -> State := fun _ s => s.

(** The operator types [self.retval = v] and leaves. *)
Definition operator_sets (v : pyvalue) : exc -> State -> State :=
  fun _ s => with_retval (Some v) s.

Definition StreamError : pyclass := Subclass "StreamError" ConstructError.

Definition range_error : exc :=
  mkExc RangeError "expected from 3 to 3 elements, found 0"
        [("  File core.py, line 1069, in _build" ++ String "010" "")%string].

Definition interrupt : exc := mkExc KeyboardInterrupt "" [].

(** A delegate that fails in all three methods with [e]. *)
Definition raising (e : exc) : Construct :=
  mkConstruct "<Range: None>" (raise e) (fun _ => raise e) (raise e).

(** A delegate that reads one byte and fails at the end of the stream; it
    builds nothing and has size 1. *)
Definition reader : Construct :=
  mkConstruct "<FormatField: None>"
    (data <- read 1 ;;
     match data with
     | [b] => ret (VInt (Z.of_N (Byte.to_N b)))
     | _ => raise (mkExc StreamError "could not read enough bytes" [])
     end)
    (fun _ => ret VNone)
    (ret 1).

(** How many of the calls pass no name. *)
Fixpoint count_unnamed (calls : list Probe_args) : nat :=
  match calls with
  | [] => 0%nat
  | a :: rest =>
      ((match arg_name a with None => 1 | Some _ => 0 end)
       + count_unnamed rest)%nat
  end.

(** * Basic facts *)

Lemma with_stream_same : forall s, with_stream (st_stream s) s = s.
Proof. now intros []. Qed.

Lemma BytesIO_eta : forall b, mkBytesIO (buf b) (pos b) = b.
Proof. now intros []. Qed.

Lemma skipn_length_app {A} (l x : list A) : skipn (List.length l) (l ++ x) = x.
Proof. induction l as [|a l IH]; simpl; auto. Qed.

Lemma printed_during_append {A} (m : M A) (s : State) r out :
  m s = (r, with_stdout (st_stdout s ++ out) s) ->
  printed_during m s = out.
Proof.
  intros E. unfold printed_during. rewrite E. simpl.
  apply skipn_length_app.
Qed.

(** Saving the cursor, reading ahead and seeking back is the identity on the
    state; only the bytes that were read come out. *)
Lemma lookahead_restores (size : Z) (s : State) :
  (fallback <- tell ;; datafollows <- read size ;; _ <- seek fallback ;;
   ret datafollows) s
  = (Return (firstn (read_count (st_stream s) size)
                    (skipn (pos (st_stream s)) (buf (st_stream s)))), s).
Proof.
  unfold bind, tell, read, seek, ret; simpl.
  destruct (Z.ltb_spec (Z.of_nat (pos (st_stream s))) 0) as [H|_]; [lia|].
  rewrite Nat2Z.id. destruct s as [[b p] c o r k]; reflexivity.
Qed.

(** [Probe.printout] in closed form: it only appends to standard output. *)
Lemma printout_run (self : Probe.t) (s : State) :
  Probe.printout self s =
  (Return tt,
   with_stdout (st_stdout s
                ++ [PStr separator; PStr ("Probe " ++ Probe.printname self)]
                ++ stream_report self s ++ context_report self s
                ++ [PStr separator]) s).
Proof.
  unfold Probe.printout, stream_report, context_report.
  destruct s as [[b p] c o r k].
  unfold bind, print, tell, read, seek, get_context, ret; simpl.
  destruct (Probe.show_stream self); simpl.
  - destruct (Z.ltb_spec (Z.of_nat p) 0) as [H|_]; [lia|].
    rewrite Nat2Z.id.
    destruct (firstn _ _); destruct (Probe.show_context self); simpl;
      unfold with_stdout; simpl; repeat rewrite <- app_assoc; reflexivity.
  - destruct (Probe.show_context self); simpl;
      unfold with_stdout; simpl; repeat rewrite <- app_assoc; reflexivity.
Qed.

Lemma no_hexdump_in_texts (out : list printed) :
  (forall p, In p out -> (exists x, p = PStr x) \/ (exists c, p = PContainer c)) ->
  forall data w, ~ In (PHexdump data w) out.
Proof.
  intros H data w Hin. destruct (H _ Hin) as [[x E] | [c E]]; discriminate.
Qed.

(** * The Probe *)

(** C3: [Probe._parse] returns [None] and changes nothing but standard
    output: the context and the stream, cursor included, are as before the
    call; and [Probe._sizeof] is 0 in every state. *)
Theorem Probe_parse_preserves_context_and_cursor :
  forall (self : Probe.t) (s : State),
    (exists out,
        Probe._parse self s = (Return VNone, with_stdout (st_stdout s ++ out) s))
    /\ st_context (snd (Probe._parse self s)) = st_context s
    /\ st_stream (snd (Probe._parse self s)) = st_stream s
    /\ pos (st_stream (snd (Probe._parse self s))) = pos (st_stream s)
    /\ Probe._sizeof self s = (Return 0, s).
Proof.
  intros self s.
  assert (E : Probe._parse self s =
              (Return VNone,
               with_stdout (st_stdout s
                  ++ [PStr separator; PStr ("Probe " ++ Probe.printname self)]
                  ++ stream_report self s ++ context_report self s
                  ++ [PStr separator]) s)).
  { unfold Probe._parse, bind. rewrite printout_run. reflexivity. }
  rewrite E. simpl. repeat split; eauto.
Qed.

(** C4, as amended: with [show_stream] on, a lookahead [L > 0] and at least
    [L] bytes after the cursor, the report is the separator, the header, one
    hex dump of exactly the [L] bytes that start at the cursor, the context
    (when shown) and the separator; the cursor ends where it started. *)
Theorem printout_dumps_lookahead_bytes :
  forall (self : Probe.t) (s : State),
    Probe.show_stream self = true ->
    0 < Probe.stream_lookahead self ->
    Probe.stream_lookahead self
      <= Z.of_nat (List.length (buf (st_stream s)) - pos (st_stream s)) ->
    let data := firstn (Z.to_nat (Probe.stream_lookahead self))
                       (skipn (pos (st_stream s)) (buf (st_stream s))) in
    Z.of_nat (List.length data) = Probe.stream_lookahead self
    /\ printed_during (Probe.printout self) s
       = [PStr separator; PStr ("Probe " ++ Probe.printname self);
          PHexdump data 32]
         ++ context_report self s ++ [PStr separator]
    /\ pos (st_stream (snd (Probe.printout self s))) = pos (st_stream s).
Proof.
  intros self s Hshow Hpos Hle data.
  assert (Hlen : Z.of_nat (List.length data) = Probe.stream_lookahead self).
  { unfold data. rewrite length_firstn, length_skipn. lia. }
  split; [exact Hlen|]. split.
  - apply printed_during_append with (r := Return tt).
    rewrite printout_run. do 3 f_equal.
    unfold stream_report, read_count. rewrite Hshow.
    destruct (Z.ltb_spec (Probe.stream_lookahead self) 0); [lia|].
    destruct (Z.ltb_spec
                (Z.of_nat (List.length (buf (st_stream s)) - pos (st_stream s)))
                (Probe.stream_lookahead self)); [lia|].
    simpl. fold data.
    destruct data; [simpl in Hlen; lia | reflexivity].
  - rewrite printout_run. reflexivity.
Qed.

Lemma printout_dumps_lookahead_bytes_witness :
  printed_during (Probe.printout (sample_probe 2)) sample_state
  = [PStr separator; PStr "Probe <unnamed 1>"; PHexdump [x02; x03] 32;
     PContainer [("length", VInt 3)]; PStr separator].
Proof.
  apply (printout_dumps_lookahead_bytes (sample_probe 2) sample_state);
    [reflexivity | reflexivity | discriminate].
Defined.

(** C4 as worded fails at [L = 0]: four bytes are in the stream, three after
    the cursor, and the report says "EOF reached" and has no hex dump. *)
Lemma lookahead_zero_prints_no_hexdump :
  ~ dumps_lookahead (sample_probe 0) sample_state.
Proof.
  unfold dumps_lookahead. intros H.
  destruct H as [Hin _]; [discriminate | discriminate |].
  vm_compute in Hin.
  repeat (destruct Hin as [Hin | Hin]; [discriminate|]). exact Hin.
Qed.

(** C8: with [show_stream] on, when the lookahead read returns no bytes the
    report has the line "EOF reached" and no hex dump. *)
Theorem printout_reports_EOF_on_empty_read :
  forall (self : Probe.t) (s : State),
    Probe.show_stream self = true ->
    fst (read (Probe.stream_lookahead self) s) = Return [] ->
    In (PStr "EOF reached") (printed_during (Probe.printout self) s)
    /\ forall data w,
         ~ In (PHexdump data w) (printed_during (Probe.printout self) s).
Proof.
  intros self s Hshow Hread.
  assert (E : printed_during (Probe.printout self) s
              = [PStr separator; PStr ("Probe " ++ Probe.printname self);
                 PStr "EOF reached"]
                ++ context_report self s ++ [PStr separator]).
  { apply printed_during_append with (r := Return tt).
    rewrite printout_run. do 3 f_equal.
    unfold stream_report. rewrite Hshow.
    unfold read in Hread. simpl in Hread. injection Hread as ->. reflexivity. }
  rewrite E. split.
  - simpl. auto.
  - apply no_hexdump_in_texts. intros p Hin.
    unfold context_report in Hin.
    destruct (Probe.show_context self); simpl in Hin;
      repeat (destruct Hin as [<- | Hin]; [eauto|]); contradiction.
Qed.

Lemma printout_reports_EOF_on_empty_read_witness :
  In (PStr "EOF reached")
     (printed_during (Probe.printout (sample_probe 128)) drained_state)
  /\ forall data w,
       ~ In (PHexdump data w)
            (printed_during (Probe.printout (sample_probe 128)) drained_state).
Proof.
  apply (printout_reports_EOF_on_empty_read (sample_probe 128) drained_state);
    reflexivity.
Defined.

(** C9: [show_stack] changes nothing.  Constructing with [show_stack=True]
    or [False] leaves the same state and gives probes that differ in that
    field only, and the two probes parse, build, report and size
    identically in every state. *)
Theorem show_stack_is_a_no_op :
  forall (name : option string) (show_stream show_context : bool)
         (lookahead : Z) (s0 : State),
  exists (p : Probe.t) (s1 : State),
    Probe.__init__ name show_stream show_context true lookahead s0
      = (Return p, s1)
    /\ Probe.__init__ name show_stream show_context false lookahead s0
       = (Return (set_show_stack false p), s1)
    /\ Probe.show_stack p = true
    /\ forall (s : State) (obj : pyvalue),
         Probe._parse p s = Probe._parse (set_show_stack false p) s
         /\ Probe._build p obj s = Probe._build (set_show_stack false p) obj s
         /\ Probe.printout p s = Probe.printout (set_show_stack false p) s
         /\ Probe._sizeof p s = Probe._sizeof (set_show_stack false p) s.
Proof.
  intros name ss sc la s0.
  destruct name as [n|]; eexists; eexists;
    (split; [reflexivity|]); (split; [reflexivity|]);
    (split; [reflexivity|]); intros s obj; repeat split.
Qed.

(** * The Debugger *)

(** [handle_exc] in closed form: print, hand the state to the operator,
    print the closing separator. *)
Lemma handle_exc_run (pm : exc -> State -> State) (self : Debugger.t)
    (msg : option string) (e : exc) (s : State) :
  Debugger.handle_exc pm self msg e s
  = (Return tt, session_exit (pm e (session_entry self msg e s))).
Proof.
  unfold Debugger.handle_exc, session_exit, session_entry, bind, print, ret.
  destruct s as [b c o r k]; simpl.
  destruct msg as [[|a m]|]; simpl; unfold with_stdout; simpl;
    repeat rewrite <- app_assoc; reflexivity.
Qed.

(** What the [except] clause of [_parse] does from the state [s1] the
    delegate failed in. *)
Lemma Debugger_parse_handler (pm : exc -> State -> State) (self : Debugger.t)
    (s : State) (e : exc) (s1 : State) :
  con_parse (Debugger.subcon self) s = (Raise e, s1) ->
  issubclass_Exception (exc_class e) = true ->
  Debugger._parse pm self s
  = let closed :=
        pm e (session_entry self (Some parse_hint) e
                            (with_retval (Some VNotImplemented) s1)) in
    match st_retval closed with
    | Some VNotImplemented => (Raise e, session_exit closed)
    | Some v => (Return v, session_exit closed)
    | None => (Raise (mkExc AttributeError "retval" []), session_exit closed)
    end.
Proof.
  intros Hfail Hexc.
  unfold Debugger._parse, try_except_Exception. rewrite Hfail, Hexc.
  unfold bind at 1. unfold Debugger.set_retval at 1.
  unfold bind at 1. rewrite handle_exc_run.
  unfold bind, Debugger.get_retval, parse_hint. simpl.
  destruct (st_retval (pm e _)) as [[]|]; reflexivity.
Qed.

(** C2: when the delegate's parse raises [e], an [Exception], the session
    opens with the slot holding [NotImplemented]; if the slot still holds it
    when the session ends, [_parse] raises [e] itself, and if the slot then
    holds another value [V], [_parse] returns [V]. *)
Theorem Debugger_parse_reraises_or_substitutes :
  forall (pm : exc -> State -> State) (self : Debugger.t)
         (s : State) (e : exc) (s1 : State),
    con_parse (Debugger.subcon self) s = (Raise e, s1) ->
    issubclass_Exception (exc_class e) = true ->
    let opened := session_entry self (Some parse_hint) e
                                (with_retval (Some VNotImplemented) s1) in
    let closed := pm e opened in
    st_retval opened = Some VNotImplemented
    /\ (st_retval closed = Some VNotImplemented ->
        Debugger._parse pm self s = (Raise e, session_exit closed))
    /\ (forall V : pyvalue,
          st_retval closed = Some V -> V <> VNotImplemented ->
          Debugger._parse pm self s = (Return V, session_exit closed)).
Proof.
  intros pm self s e s1 Hfail Hexc opened closed.
  pose proof (Debugger_parse_handler pm self s e s1 Hfail Hexc) as E.
  cbv zeta in E. fold opened in E. fold closed in E.
  split; [reflexivity|]. split.
  - intros Hslot. rewrite E, Hslot. reflexivity.
  - intros V Hslot HV. rewrite E, Hslot. destruct V; congruence.
Qed.

Lemma Debugger_parse_reraises_or_substitutes_witness :
  fst (Debugger._parse operator_continues (Debugger.mk (raising range_error))
                       sample_state) = Raise range_error
  /\ fst (Debugger._parse (operator_sets (VInt 42))
                          (Debugger.mk (raising range_error)) sample_state)
     = Return (VInt 42).
Proof.
  split.
  - destruct (Debugger_parse_reraises_or_substitutes operator_continues
                (Debugger.mk (raising range_error)) sample_state range_error
                sample_state eq_refl eq_refl) as (_ & H & _).
    rewrite (H eq_refl). reflexivity.
  - destruct (Debugger_parse_reraises_or_substitutes (operator_sets (VInt 42))
                (Debugger.mk (raising range_error)) sample_state range_error
                sample_state eq_refl eq_refl) as (_ & _ & H).
    rewrite (H (VInt 42) eq_refl); [reflexivity | discriminate].
Defined.

(** What the [except] clause of [_build] does from the state [s1] the
    delegate failed in: the session runs and the call returns [None]. *)
Lemma Debugger_build_handler (pm : exc -> State -> State) (self : Debugger.t)
    (obj : pyvalue) (s : State) (e : exc) (s1 : State) :
  con_build (Debugger.subcon self) obj s = (Raise e, s1) ->
  issubclass_Exception (exc_class e) = true ->
  Debugger._build pm self obj s
  = (Return VNone, session_exit (pm e (session_entry self None e s1))).
Proof.
  intros Hfail Hexc.
  unfold Debugger._build, try_except_Exception.
  unfold bind at 1. rewrite Hfail, Hexc.
  unfold bind. rewrite handle_exc_run. reflexivity.
Qed.

(** C1: the code at the failing input.  The delegate's build raises
    [RangeError], an [Exception]; [Debugger._build] runs the session and
    then returns [None] to its caller: the error is not raised again. *)
Theorem Debugger_build_swallows_RangeError :
  con_build (raising range_error) (VList []) sample_state
    = (Raise range_error, sample_state)
  /\ issubclass_Exception (exc_class range_error) = true
  /\ fst (Debugger._build operator_continues
                          (Debugger.mk (raising range_error))
                          (VList []) sample_state)
     = Return VNone.
Proof.
  split; [reflexivity|]. split; [reflexivity|].
  rewrite (Debugger_build_handler operator_continues
             (Debugger.mk (raising range_error)) (VList []) sample_state
             range_error sample_state eq_refl eq_refl).
  reflexivity.
Qed.

(** C5, as amended: a parse whose delegate succeeds returns the delegate's
    value in the delegate's final state, the slot neither read nor written;
    a parse whose delegate raises an [Exception] opens the session with the
    slot holding [NotImplemented] whatever the slot held before, so its
    outcome is that of the session alone. *)
Theorem Debugger_parse_resets_slot_on_failure :
  forall (pm : exc -> State -> State) (self : Debugger.t) (s : State),
    (forall (v : pyvalue) (s1 : State),
        con_parse (Debugger.subcon self) s = (Return v, s1) ->
        Debugger._parse pm self s = (Return v, s1))
    /\ (forall (e : exc) (s1 : State),
          con_parse (Debugger.subcon self) s = (Raise e, s1) ->
          issubclass_Exception (exc_class e) = true ->
          forall stale : option pyvalue,
            let opened :=
              session_entry self (Some parse_hint) e
                (with_retval (Some VNotImplemented) (with_retval stale s1)) in
            st_retval opened = Some VNotImplemented
            /\ Debugger._parse pm self s
               = match st_retval (pm e opened) with
                 | Some VNotImplemented => (Raise e, session_exit (pm e opened))
                 | Some v => (Return v, session_exit (pm e opened))
                 | None => (Raise (mkExc AttributeError "retval" []),
                            session_exit (pm e opened))
                 end).
Proof.
  intros pm self s. split.
  - intros v s1 Hok. unfold Debugger._parse, try_except_Exception.
    rewrite Hok. reflexivity.
  - intros e s1 Hfail Hexc stale opened. split; [reflexivity|].
    rewrite (Debugger_parse_handler pm self s e s1 Hfail Hexc).
    reflexivity.
Qed.

Lemma Debugger_parse_resets_slot_on_failure_witness :
  Debugger._parse operator_continues (Debugger.mk reader)
                  (with_retval (Some (VInt 42)) sample_state)
  = (Return (VInt 2),
     with_stream (mkBytesIO [x01; x02; x03; x04] 2)
                 (with_retval (Some (VInt 42)) sample_state))
  /\ fst (Debugger._parse operator_continues (Debugger.mk reader)
                          (with_retval (Some (VInt 42)) drained_state))
     = Raise (mkExc StreamError "could not read enough bytes" []).
Proof.
  split.
  - apply (Debugger_parse_resets_slot_on_failure operator_continues
             (Debugger.mk reader) (with_retval (Some (VInt 42)) sample_state)).
    reflexivity.
  - destruct (Debugger_parse_resets_slot_on_failure operator_continues
                (Debugger.mk reader)
                (with_retval (Some (VInt 42)) drained_state)) as [_ H].
    destruct (H (mkExc StreamError "could not read enough bytes" [])
                (with_retval (Some (VInt 42)) drained_state)
                eq_refl eq_refl (Some (VInt 42))) as [_ E].
    rewrite E. reflexivity.
Defined.

(** C5 as worded fails.  A first parse fails at the end of the stream and
    the operator sets the slot to 42; the same instance then parses a fresh
    stream successfully, and the slot still holds 42 afterwards: that call
    did not reset it. *)
Lemma successful_parse_keeps_stale_slot :
  let dbg := Debugger.mk reader in
  let after_session :=
    snd (Debugger._parse (operator_sets (VInt 42)) dbg drained_state) in
  let next_call := with_stream sample_stream after_session in
  st_retval next_call = Some (VInt 42)
  /\ st_retval (snd (Debugger._parse operator_continues dbg next_call))
     = Some (VInt 42)
  /\ ~ resets_slot_at_start operator_continues dbg next_call.
Proof.
  split; [reflexivity|]. split; [reflexivity|].
  unfold resets_slot_at_start. intros H.
  apply (f_equal (fun r => st_retval (snd r))) in H.
  vm_compute in H. discriminate H.
Qed.

(** C7: [Debugger._sizeof] gives what the delegate's [_sizeof] gives, value
    and state alike, and raises what it raises. *)
Theorem Debugger_sizeof_is_delegate_sizeof :
  forall (self : Debugger.t) (s : State),
    (forall (n : Z) (s1 : State),
        con_sizeof (Debugger.subcon self) s = (Return n, s1) ->
        Debugger._sizeof self s = (Return n, s1))
    /\ (forall (e : exc) (s1 : State),
          con_sizeof (Debugger.subcon self) s = (Raise e, s1) ->
          Debugger._sizeof self s = (Raise e, s1)).
Proof.
  intros self s. split; intros x s1 H; exact H.
Qed.

Lemma Debugger_sizeof_is_delegate_sizeof_witness :
  Debugger._sizeof (Debugger.mk reader) sample_state = (Return 1, sample_state)
  /\ Debugger._sizeof (Debugger.mk (raising range_error)) sample_state
     = (Raise range_error, sample_state).
Proof.
  split.
  - apply (Debugger_sizeof_is_delegate_sizeof (Debugger.mk reader) sample_state).
    reflexivity.
  - apply (Debugger_sizeof_is_delegate_sizeof
             (Debugger.mk (raising range_error)) sample_state).
    reflexivity.
Defined.

(** C10: an error that is not an [Exception] goes straight through
    [_parse] and [_build]: the same error, in the very state the delegate
    left, whatever the operator would have done; so nothing was printed, no
    session ran and the slot was not written. *)
Theorem Debugger_passes_BaseException_through :
  forall (pm : exc -> State -> State) (self : Debugger.t) (obj : pyvalue)
         (s : State) (e : exc) (s1 : State),
    issubclass_Exception (exc_class e) = false ->
    (con_parse (Debugger.subcon self) s = (Raise e, s1) ->
     Debugger._parse pm self s = (Raise e, s1))
    /\ (con_build (Debugger.subcon self) obj s = (Raise e, s1) ->
        Debugger._build pm self obj s = (Raise e, s1)).
Proof.
  intros pm self obj s e s1 Hbase. split; intros Hfail.
  - unfold Debugger._parse, try_except_Exception.
    rewrite Hfail, Hbase. reflexivity.
  - unfold Debugger._build, try_except_Exception.
    unfold bind at 1. rewrite Hfail, Hbase. reflexivity.
Qed.

Lemma Debugger_passes_BaseException_through_witness :
  Debugger._parse (operator_sets (VInt 42)) (Debugger.mk (raising interrupt))
                  sample_state
  = (Raise interrupt, sample_state)
  /\ Debugger._build (operator_sets (VInt 42)) (Debugger.mk (raising interrupt))
                     VNone sample_state
     = (Raise interrupt, sample_state).
Proof.
  destruct (Debugger_passes_BaseException_through (operator_sets (VInt 42))
              (Debugger.mk (raising interrupt)) VNone sample_state interrupt
              sample_state eq_refl) as [Hp Hb].
  split; [apply Hp | apply Hb]; reflexivity.
Defined.

(** * Automatic names *)

Lemma format_d_inj (a b : Z) : format_d a = format_d b -> a = b.
Proof.
  unfold format_d. intros H. apply DecimalZ.to_int_inj.
  apply (f_equal NilEmpty.int_of_string) in H.
  rewrite !NilEmpty.isi in H. congruence.
Qed.

Lemma append_closing_inj (a b : string) :
  (a ++ ">")%string = (b ++ ">")%string -> a = b.
Proof.
  revert b. induction a as [|x a IH]; intros [|y b] H; simpl in H.
  - reflexivity.
  - injection H as _ H. destruct b; discriminate H.
  - injection H as _ H. destruct a; discriminate H.
  - injection H as -> H. f_equal. auto.
Qed.

Lemma unnamed_inj (a b : Z) : Probe.unnamed a = Probe.unnamed b -> a = b.
Proof.
  unfold Probe.unnamed. simpl. intros H. injection H as H.
  apply format_d_inj, append_closing_inj, H.
Qed.

Lemma init_run (name : option string) (ss sc sk : bool) (la : Z) (s : State) :
  Probe.__init__ name ss sc sk la s
  = (Return (Probe.mk (match name with
                       | Some n => n
                       | None => Probe.unnamed (st_counter s + 1)
                       end) ss sc sk la true),
     match name with
     | Some _ => s
     | None => with_counter (st_counter s + 1) s
     end).
Proof. destruct name; reflexivity. Qed.

Lemma init_counter (name : option string) (s : State) :
  st_counter s
  <= st_counter (match name with
                 | Some _ => s
                 | None => with_counter (st_counter s + 1) s
                 end).
Proof. destruct name; simpl; lia. Qed.

(** Unfolding one construction. *)
Lemma construct_all_cons (a : Probe_args) (rest : list Probe_args) (s : State)
    (ps : list Probe.t) (s' : State) :
  construct_all (a :: rest) s = (Return ps, s') ->
  exists p s0 ps0,
    Probe.__init__ (arg_name a) (arg_show_stream a) (arg_show_context a)
                   (arg_show_stack a) (arg_stream_lookahead a) s
      = (Return p, s0)
    /\ construct_all rest s0 = (Return ps0, s')
    /\ ps = p :: ps0.
Proof.
  cbn [construct_all]. unfold bind at 1. rewrite init_run. unfold bind, ret.
  destruct (construct_all rest _) as [[ps0|e] s1] eqn:E; intros H;
    [|discriminate H].
  injection H as <- <-. do 3 eexists. eauto.
Qed.

(** Constructing never fails and gives one probe per call. *)
Lemma construct_all_returns (calls : list Probe_args) :
  forall s, exists ps s',
    construct_all calls s = (Return ps, s')
    /\ List.length ps = List.length calls.
Proof.
  induction calls as [|a rest IH]; intros s.
  - exists [], s. split; reflexivity.
  - cbn [construct_all]. unfold bind at 1. rewrite init_run. unfold bind, ret.
    destruct (IH (match arg_name a with
                  | Some _ => s
                  | None => with_counter (st_counter s + 1) s
                  end)) as (ps & s' & E & L).
    rewrite E. do 2 eexists. split; [reflexivity|]. simpl. now rewrite L.
Qed.

(** Every automatic name carries a counter value reached during the run. *)
Lemma construct_all_counter (calls : list Probe_args) :
  forall s ps s',
    construct_all calls s = (Return ps, s') ->
    st_counter s <= st_counter s'
    /\ forall i a p,
         nth_error calls i = Some a -> arg_name a = None ->
         nth_error ps i = Some p ->
         exists c, st_counter s < c <= st_counter s'
                   /\ Probe.printname p = Probe.unnamed c.
Proof.
  induction calls as [|a rest IH]; intros s ps s' H.
  - injection H as <- <-. split; [lia|]. intros [|i] b p Hb; discriminate Hb.
  - apply construct_all_cons in H. destruct H as (p0 & s0 & ps0 & H0 & Hr & ->).
    rewrite init_run in H0. injection H0 as <- <-.
    destruct (IH _ _ _ Hr) as [Hle Hnames].
    pose proof (init_counter (arg_name a) s) as Hstep.
    split; [lia|]. intros [|i] b p Hb Hnone Hp; simpl in Hb, Hp.
    + injection Hb as <-. injection Hp as <-. rewrite Hnone in *. simpl in *.
      exists (st_counter s + 1). split; [lia | reflexivity].
    + destruct (Hnames i b p Hb Hnone Hp) as (c & Hc & E).
      exists c. split; [lia | exact E].
Qed.

(** C6: among probes constructed one after the other in one process, any
    two that were given no name have different names, and the number in the
    later one's name is the greater. *)
Theorem unnamed_probes_get_distinct_increasing_names :
  forall (calls : list Probe_args) (s : State) (ps : list Probe.t) (s' : State)
         (i j : nat) (ai aj : Probe_args) (pi pj : Probe.t),
    construct_all calls s = (Return ps, s') ->
    (i < j)%nat ->
    nth_error calls i = Some ai -> arg_name ai = None ->
    nth_error calls j = Some aj -> arg_name aj = None ->
    nth_error ps i = Some pi -> nth_error ps j = Some pj ->
    Probe.printname pi <> Probe.printname pj
    /\ exists ci cj : Z,
         ci < cj
         /\ Probe.printname pi = Probe.unnamed ci
         /\ Probe.printname pj = Probe.unnamed cj.
Proof.
  intros calls s ps s' i j ai aj pi pj Hrun Hij Hai Hni Haj Hnj Hpi Hpj.
  assert (Hnum : exists ci cj : Z,
             ci < cj /\ Probe.printname pi = Probe.unnamed ci
             /\ Probe.printname pj = Probe.unnamed cj).
  { revert s ps s' i j Hrun Hij Hai Haj Hpi Hpj.
    induction calls as [|a rest IH]; intros s ps s' i j Hrun Hij Hai Haj Hpi Hpj.
    - destruct i; discriminate Hai.
    - apply construct_all_cons in Hrun.
      destruct Hrun as (p0 & s0 & ps0 & H0 & Hr & ->).
      destruct j as [|j]; [lia|]. simpl in Haj, Hpj.
      destruct i as [|i]; simpl in Hai, Hpi.
      + injection Hai as ->. injection Hpi as ->.
        rewrite init_run, Hni in H0. injection H0 as <- <-.
        destruct (construct_all_counter _ _ _ _ Hr) as [_ Hnames].
        destruct (Hnames j aj pj Haj Hnj Hpj) as (c & Hc & E).
        simpl in Hc. exists (st_counter s + 1), c.
        split; [lia|]. split; [reflexivity | exact E].
      + apply (IH s0 ps0 s' i j Hr); auto. lia. }
  split; [|exact Hnum].
  destruct Hnum as (ci & cj & Hlt & Ei & Ej).
  rewrite Ei, Ej. intros Heq. apply unnamed_inj in Heq. lia.
Qed.

Lemma unnamed_probes_get_distinct_increasing_names_witness :
  Probe.printname (Probe.mk "<unnamed 1>" true true true 128 true)
  <> Probe.printname (Probe.mk "<unnamed 2>" true false true 16 true).
Proof.
  apply (unnamed_probes_get_distinct_increasing_names
           [mkArgs None true true true 128;
            mkArgs (Some "header") true true true 128;
            mkArgs None true false true 16]
           sample_state
           [Probe.mk "<unnamed 1>" true true true 128 true;
            Probe.mk "header" true true true 128 true;
            Probe.mk "<unnamed 2>" true false true 16 true]
           (with_counter 2 sample_state)
           0%nat 2%nat
           (mkArgs None true true true 128) (mkArgs None true false true 16)
           (Probe.mk "<unnamed 1>" true true true 128 true)
           (Probe.mk "<unnamed 2>" true false true 16 true));
    (reflexivity || lia).
Defined.

(** * Further properties of the Probe *)











(** X6: construction never fails and automatic names are consecutive.
    Calls that pass a name keep it and leave the counter alone; the
    unnamed call at position [i] gets the starting counter plus the number
    of unnamed calls up to and including it; the counter ends at the
    starting value plus the number of unnamed calls; every option is
    stored as given and [flagbuildnone] is set. *)
Theorem auto_names_are_consecutive :
  forall (calls : list Probe_args) (s : State),
  exists ps : list Probe.t,
    construct_all calls s
    = (Return ps,
       with_counter (st_counter s + Z.of_nat (count_unnamed calls)) s)
    /\ List.length ps = List.length calls
    /\ forall (i : nat) (a : Probe_args) (p : Probe.t),
         nth_error calls i = Some a ->
         nth_error ps i = Some p ->
         Probe.printname p
         = match arg_name a with
           | Some n => n
           | None =>
               Probe.unnamed
                 (st_counter s
                  + Z.of_nat (count_unnamed (firstn (S i) calls)))
           end
         /\ Probe.show_stream p = arg_show_stream a
         /\ Probe.show_context p = arg_show_context a
         /\ Probe.show_stack p = arg_show_stack a
         /\ Probe.stream_lookahead p = arg_stream_lookahead a
         /\ Probe.flagbuildnone p = true.
Proof.
  induction calls as [|a rest IH]; intros s.
  - exists []. split; [|split; [reflexivity|]].
    + destruct s; unfold with_counter; simpl. now rewrite Z.add_0_r.
    + intros [|i] b p H; discriminate H.
  - cbn [construct_all]. unfold bind at 1. rewrite init_run.
    set (s0 := match arg_name a with
               | Some _ => s
               | None => with_counter (st_counter s + 1) s
               end).
    destruct (IH s0) as (ps & E & L & Hnth).
    unfold bind, ret. rewrite E. eexists. split; [|split].
    + f_equal. unfold s0. cbn [count_unnamed].
      destruct (arg_name a); unfold with_counter; simpl; f_equal; lia.
    + simpl. now rewrite L.
    + intros [|i] b p Hb Hp; simpl in Hb, Hp.
      * injection Hb as <-. injection Hp as <-. simpl.
        repeat split. destruct (arg_name a); [reflexivity|].
        simpl. reflexivity.
      * destruct (Hnth i b p Hb Hp) as (Hname & Hrest). split; [|exact Hrest].
        rewrite Hname. destruct (arg_name b); [reflexivity|]. f_equal.
        change (firstn (S (S i)) (a :: rest)) with (a :: firstn (S i) rest).
        cbn [count_unnamed]. unfold s0.
        destruct (arg_name a); simpl st_counter; lia.
Qed.

(** * Further properties of the Debugger *)

(** X7: when the delegate succeeds the Debugger is transparent, whatever
    the operator would do: [_parse] returns the delegate's value and
    [_build] returns [None] (the delegate's own return value is dropped),
    both in the state the delegate left, with nothing printed and the slot
    untouched. *)
Theorem Debugger_is_transparent_on_success :
  forall (pm : exc -> State -> State) (self : Debugger.t) (obj v : pyvalue)
         (s s1 : State),
    (con_parse (Debugger.subcon self) s = (Return v, s1) ->
     Debugger._parse pm self s = (Return v, s1))
    /\ (con_build (Debugger.subcon self) obj s = (Return v, s1) ->
        Debugger._build pm self obj s = (Return VNone, s1)).
Proof.
  intros pm self obj v s s1. split; intros H.
  - unfold Debugger._parse, try_except_Exception. rewrite H. reflexivity.
  - unfold Debugger._build, try_except_Exception. unfold bind at 1.
    rewrite H. reflexivity.
Qed.

Lemma Debugger_is_transparent_on_success_witness :
  Debugger._parse (operator_sets (VInt 42)) (Debugger.mk reader) sample_state
  = (Return (VInt 2),
     with_stream (mkBytesIO [x01; x02; x03; x04] 2) sample_state)
  /\ Debugger._build (operator_sets (VInt 42)) (Debugger.mk reader)
                     (VInt 7) sample_state
     = (Return VNone, sample_state).
Proof.
  destruct (Debugger_is_transparent_on_success (operator_sets (VInt 42))
              (Debugger.mk reader) (VInt 7) (VInt 2) sample_state
              (with_stream (mkBytesIO [x01; x02; x03; x04] 2) sample_state))
    as [Hp _].
  destruct (Debugger_is_transparent_on_success (operator_sets (VInt 42))
              (Debugger.mk reader) (VInt 7) VNone sample_state sample_state)
    as [_ Hb].
  split; [apply Hp | apply Hb]; reflexivity.
Defined.

(** X8: [handle_exc] never raises.  Before the session it prints the
    separator, the header naming the delegate and the traceback without its
    first line, then the hint when one is given and is not empty (an empty
    hint is treated as no hint); the operator starts from the state so
    printed, otherwise untouched; afterwards only the closing separator is
    added to whatever the operator left. *)
Theorem handle_exc_frames_the_session :
  forall (pm : exc -> State -> State) (self : Debugger.t)
         (msg : option string) (e : exc) (s : State),
    Debugger.handle_exc pm self (Some "") e s
      = Debugger.handle_exc pm self None e s
    /\ exists opened : State,
         st_stdout opened
         = st_stdout s
           ++ [PStr separator;
               PStr ("Debugging exception of "
                     ++ con_str (Debugger.subcon self) ++ ":");
               PStr (String.concat "" (tl (format_exception e)))]
           ++ match msg with
              | Some (String c m) => [PStr (String c m)]
              | _ => []
              end
         /\ with_stdout (st_stdout s) opened = s
         /\ Debugger.handle_exc pm self msg e s
            = (Return tt,
               with_stdout (st_stdout (pm e opened) ++ [PStr separator])
                           (pm e opened)).
Proof.
  intros pm self msg e s. split.
  - rewrite !handle_exc_run. reflexivity.
  - exists (session_entry self msg e s). split; [|split].
    + unfold session_entry. simpl. destruct msg as [[|c m]|]; reflexivity.
    + destruct s. reflexivity.
    + apply handle_exc_run.
Qed.

(** X9: when the delegate's build raises an [Exception], [_build] opens the
    session after the separator, the header and the traceback, with no
    hint and without touching the slot, and then returns [None] in the
    state the operator left plus the closing separator. *)
Theorem Debugger_build_failure_path :
  forall (pm : exc -> State -> State) (self : Debugger.t) (obj : pyvalue)
         (s : State) (e : exc) (s1 : State),
    con_build (Debugger.subcon self) obj s = (Raise e, s1) ->
    issubclass_Exception (exc_class e) = true ->
    exists opened : State,
      st_stdout opened
      = st_stdout s1
        ++ [PStr separator;
            PStr ("Debugging exception of "
                  ++ con_str (Debugger.subcon self) ++ ":");
            PStr (String.concat "" (tl (format_exception e)))]
      /\ with_stdout (st_stdout s1) opened = s1
      /\ Debugger._build pm self obj s
         = (Return VNone,
            with_stdout (st_stdout (pm e opened) ++ [PStr separator])
                        (pm e opened)).
Proof.
  intros pm self obj s e s1 Hfail Hexc.
  exists (session_entry self None e s1). split; [|split].
  - unfold session_entry. simpl. reflexivity.
  - destruct s1. reflexivity.
  - apply (Debugger_build_handler pm self obj s e s1 Hfail Hexc).
Qed.

Lemma Debugger_build_failure_path_witness :
  exists opened : State,
    st_stdout opened
    = st_stdout sample_state
      ++ [PStr separator;
          PStr "Debugging exception of <Range: None>:";
          PStr (String.concat "" (tl (format_exception range_error)))]
    /\ with_stdout (st_stdout sample_state) opened = sample_state
    /\ Debugger._build operator_continues (Debugger.mk (raising range_error))
                       (VList []) sample_state
       = (Return VNone,
          with_stdout (st_stdout (operator_continues range_error opened)
                       ++ [PStr separator])
                      (operator_continues range_error opened)).
Proof.
  apply (Debugger_build_failure_path operator_continues
           (Debugger.mk (raising range_error)) (VList []) sample_state
           range_error sample_state);
    reflexivity.
Defined.

(** X10: [_parse] raises nothing of its own as long as the operator leaves
    the slot in place: an error that comes out of [_parse] is the very
    error the delegate raised. *)
Theorem Debugger_parse_raises_only_the_delegate_error :
  forall (pm : exc -> State -> State) (self : Debugger.t)
         (s : State) (e' : exc) (s' : State),
    (forall e x, st_retval x <> None -> st_retval (pm e x) <> None) ->
    Debugger._parse pm self s = (Raise e', s') ->
    exists s1, con_parse (Debugger.subcon self) s = (Raise e', s1).
Proof.
  intros pm self s e' s' Hkeep H.
  destruct (con_parse (Debugger.subcon self) s) as [[v|e] s1] eqn:Hd.
  - unfold Debugger._parse, try_except_Exception in H. rewrite Hd in H.
    discriminate H.
  - destruct (issubclass_Exception (exc_class e)) eqn:Hexc.
    + rewrite (Debugger_parse_handler pm self s e s1 Hd Hexc) in H.
      cbv zeta in H.
      pose proof (Hkeep e (session_entry self (Some parse_hint) e
                             (with_retval (Some VNotImplemented) s1))) as Hk.
      destruct (st_retval (pm e _)) as [r|].
      * destruct r; try discriminate H. injection H as <- _. eauto.
      * exfalso. apply Hk; [discriminate | reflexivity].
    + unfold Debugger._parse, try_except_Exception in H.
      rewrite Hd, Hexc in H. injection H as <- _. eauto.
Qed.

Lemma Debugger_parse_raises_only_the_delegate_error_witness :
  exists s1,
    con_parse (Debugger.subcon (Debugger.mk (raising range_error))) sample_state
    = (Raise range_error, s1).
Proof.
  apply (Debugger_parse_raises_only_the_delegate_error operator_continues
           (Debugger.mk (raising range_error)) sample_state range_error
           (session_exit
              (session_entry (Debugger.mk (raising range_error))
                 (Some parse_hint) range_error
                 (with_retval (Some VNotImplemented) sample_state)))).
  - intros e x H. exact H.
  - reflexivity.
Defined.

(** X11: an error that comes out of [_build] is never an [Exception]: it
    is an error of another kind that the delegate raised, handed on in the
    state the delegate left. *)
Theorem Debugger_build_raises_no_Exception :
  forall (pm : exc -> State -> State) (self : Debugger.t) (obj : pyvalue)
         (s : State) (e' : exc) (s' : State),
    Debugger._build pm self obj s = (Raise e', s') ->
    issubclass_Exception (exc_class e') = false
    /\ con_build (Debugger.subcon self) obj s = (Raise e', s').
Proof.
  intros pm self obj s e' s' H.
  destruct (con_build (Debugger.subcon self) obj s) as [[v|e] s1] eqn:Hd.
  - unfold Debugger._build, try_except_Exception in H.
    unfold bind at 1 in H. rewrite Hd in H. discriminate H.
  - destruct (issubclass_Exception (exc_class e)) eqn:Hexc.
    + rewrite (Debugger_build_handler pm self obj s e s1 Hd Hexc) in H.
      discriminate H.
    + unfold Debugger._build, try_except_Exception in H.
      unfold bind at 1 in H. rewrite Hd, Hexc in H.
      injection H as <- <-. auto.
Qed.

Lemma Debugger_build_raises_no_Exception_witness :
  issubclass_Exception (exc_class interrupt) = false
  /\ con_build (Debugger.subcon (Debugger.mk (raising interrupt))) VNone
               sample_state
     = (Raise interrupt, sample_state).
Proof.
  apply (Debugger_build_raises_no_Exception operator_continues
           (Debugger.mk (raising interrupt)) VNone sample_state interrupt
           sample_state).
  reflexivity.
Defined.
